(** * deepagents-cli web tools: provider fallback, HTTP request tool, page fetcher

    A shallow embedding of [deepagents_cli/tools.py].  Python dictionaries are
    finite maps from strings to JSON-like values, exceptions are values of a
    result type, and every call that leaves the process (a search backend, the
    [requests] library) is a field of a [world] record whose calls are logged
    in a trace, so that statements about which adapter ran, and in which
    order, can be made. *)

From Stdlib Require Import ZArith QArith_base String Ascii.
From stdpp Require Import gmap strings pretty list fin_maps.

Set Warnings "-register-all,-clear-no-such-hyp".
Close Scope Q_scope.
Open Scope Z_scope.

(** ** Python values *)

(** The values that travel through the tools: what [json.loads] produces and
    what the tools put in the dictionaries they return.  A Python [float] is
    a rational here; NaN and the infinities are not represented. *)
Inductive json : Type :=
  | JNull
  | JBool (b : bool)
  | JInt (z : Z)
  | JFloat (q : Q)
  | JStr (s : string)
  | JArr (l : list json)
  | JObj (m : gmap string json).

(** A [dict[str, Any]]. *)
Abbreviation dict := (gmap string json).

(** A [dict[str, str]] seen as a value. *)
Definition str_dict (h : gmap string string) : json := JObj (JStr <$> h).

(** [k in d] for a dictionary [d]. *)
Definition key_in (k : string) (d : dict) : bool :=
  match d !! k with Some _ => true | None => false end.

(** Truth value of an optional dictionary in a condition ([if headers:]):
    [None] and the empty dictionary are false. *)
Definition truthy_dict {V} (o : option (gmap string V)) : bool :=
  match o with
  | Some d => negb (bool_decide (d = ∅))
  | None => false
  end.

(** Truth value of an optional string ([if _serper_api_key:]): [None] and the
    empty string are false. *)
Definition truthy_str (o : option string) : bool :=
  match o with
  | Some s => negb (bool_decide (s = ""))
  | None => false
  end.

(** [s.upper()], on the ASCII letters. *)
Definition upper_ascii (c : ascii) : ascii :=
  let n := nat_of_ascii c in
  if (97 <=? n)%nat && (n <=? 122)%nat then ascii_of_nat (n - 32) else c.

Fixpoint upper (s : string) : string :=
  match s with
  | EmptyString => EmptyString
  | String c s' => String (upper_ascii c) (upper s')
  end.

(** [l[:n]] for a list: a negative bound counts from the end. *)
Definition slice_to {A} (n : Z) (l : list A) : list A :=
  if 0 <=? n then take (Z.to_nat n) l
  else take (Z.to_nat (Z.of_nat (length l) + n)) l.

(** ** Exceptions *)

(** The exception classes the tools distinguish, all below [Exception]:
    the [requests.exceptions] hierarchy ([Timeout] and its two subclasses,
    [ConnectionError], [HTTPError], [JSONDecodeError], any other
    [RequestException]), the two errors raised by operations on values of the
    wrong type, and [Exception] for everything else. *)
Inductive exn_class :=
  | Timeout | ConnectTimeout | ReadTimeout
  | ConnectionError | HTTPError | JSONDecodeError | RequestException
  | AttributeError | TypeError
  | Exception.

(** An exception object: its class and [str(e)]. *)
Record exn := Exn { exn_cls : exn_class; exn_str : string }.

(** [isinstance(e, requests.exceptions.Timeout)] *)
Definition is_Timeout (c : exn_class) : bool :=
  match c with
  | Timeout | ConnectTimeout | ReadTimeout => true
  | _ => false
  end.

(** [isinstance(e, requests.exceptions.RequestException)] *)
Definition is_RequestException (c : exn_class) : bool :=
  match c with
  | Timeout | ConnectTimeout | ReadTimeout
  | ConnectionError | HTTPError | JSONDecodeError | RequestException => true
  | _ => false
  end.

(** [isinstance(e, Exception)] *)
Definition is_Exception (c : exn_class) : bool := true.

(** Outcome of an expression: a value or a raised exception. *)
Inductive res (A : Type) : Type :=
  | Ret (a : A)
  | Raise (e : exn).
Arguments Ret {A} a.
Arguments Raise {A} e.

(** ** Effects *)

Inductive provider := Tavily | Serper | DuckDuckGo.

Global Instance provider_eq_dec : EqDecision provider.
Proof. solve_decision. Defined.

(** What a run leaves behind: [Invoke p] when adapter [p] is entered,
    [BackendCall p] when it calls its backend, [HttpCall url] when
    [http_request] or [fetch_url] hands a request to [requests]. *)
Inductive event :=
  | Invoke (p : provider)
  | BackendCall (p : provider)
  | HttpCall (url : string).

(** A computation: its outcome and the events it performed, in order. *)
Definition M (A : Type) : Type := res A * list event.

Definition ret {A} (a : A) : M A := (Ret a, []).
Definition raise {A} (e : exn) : M A := (Raise e, []).
Definition emit (ev : event) : M unit := (Ret tt, [ev]).
Definition lift {A} (r : res A) : M A := (r, []).

Definition bind {A B} (m : M A) (f : A -> M B) : M B :=
  match m with
  | (Ret a, t) => let '(r, t') := f a in (r, t ++ t')
  | (Raise e, t) => (Raise e, t)
  end.

Notation "'let*' x ':=' m 'in' k" := (bind m (fun x => k))
  (at level 10, x pattern, m at level 100, k at level 200).

(** One [except C as e: h] clause: the class test and the handler. *)
Definition handler (A : Type) : Type := (exn_class -> bool) * (exn -> M A).

(** [try: body  except ...: ...]: the first clause whose class matches runs;
    with no matching clause the exception goes on. *)
Definition try_except {A} (body : M A) (hs : list (handler A)) : M A :=
  match body with
  | (Ret a, t) => (Ret a, t)
  | (Raise e, t) =>
      match find (fun h : handler A => fst h (exn_cls e)) hs with
      | Some h => let '(r, t') := snd h e in (r, t ++ t')
      | None => (Raise e, t)
      end
  end.

(** [for x in l: ys.append(f(x))] *)
Fixpoint for_each {A B} (f : A -> M B) (l : list A) : M (list B) :=
  match l with
  | [] => ret []
  | x :: l' =>
      let* y := f x in
      let* ys := for_each f l' in
      ret (y :: ys)
  end.

(** The providers a trace entered, in order. *)
Definition invoked (t : list event) : list provider :=
  omap (fun ev => match ev with Invoke p => Some p | _ => None end) t.

(** ** The world outside the process *)

(** A [requests.Response], as far as the tools read it.  [json_body] is the
    outcome of [response.json()], which raises when the body is not JSON. *)
Record response := Response {
  status_code : Z;
  reason : string;
  resp_headers : gmap string string;
  text : string;
  json_body : res json;
  resp_url : string;
}.

(** [Response.raise_for_status] of the requests library: [HTTPError] for a
    4xx status (Client Error) and for a 5xx status (Server Error), nothing
    for any other status. *)
Definition raise_for_status (r : response) : res unit :=
  if (400 <=? status_code r) && (status_code r <? 500) then
    Raise (Exn HTTPError (pretty (status_code r) +:+ " Client Error: " +:+ reason r
                          +:+ " for url: " +:+ resp_url r))
  else if (500 <=? status_code r) && (status_code r <? 600) then
    Raise (Exn HTTPError (pretty (status_code r) +:+ " Server Error: " +:+ reason r
                          +:+ " for url: " +:+ resp_url r))
  else Ret tt.

Inductive topic := general | news | finance.

(** Everything the tools call and do not define: the Tavily client's
    [search], [requests.post], [requests.get] and [requests.request], the
    [DDGS] constructor and its [text] method, and [markdownify].  Each is a
    function of its arguments that returns or raises. *)
Record world := World {
  tavily_search : string -> Z -> bool -> topic -> res json;
  requests_post : string -> dict -> dict -> Z -> res response;
  requests_get : string -> Z -> dict -> res response;
  requests_request : dict -> res response;
  DDGS : res unit;
  ddgs_text : string -> Z -> res (list json);
  markdownify : string -> res string;
}.

(** ** Module state *)

(** The three module-level names set when the module is loaded.  The Tavily
    client is an object (kept here as the API key it was built with), so it
    is true in a condition whenever it is not [None]. *)
Record registry := Registry {
  _tavily_client : option string;
  _serper_api_key : option string;
  _ddg_available : bool;
}.

(** Lines 12-28: [environ] is [os.environ]; [has_tavily] and
    [tavily_api_key] are the two attributes read from [settings];
    [tavily_importable] and [ddg_importable] say whether the two optional
    imports succeed. *)
Definition module_init (environ : gmap string string)
    (has_tavily : bool) (tavily_api_key : string)
    (tavily_importable ddg_importable : bool) : registry :=
  {| _tavily_client :=
       if has_tavily then
         if tavily_importable then Some tavily_api_key else None
       else None;
     _serper_api_key := environ !! "SERPER_API_KEY";
     _ddg_available := ddg_importable |}.

Definition is_search_available (reg : registry) : bool :=
  bool_decide (_tavily_client reg <> None)
  || bool_decide (_serper_api_key reg <> None)
  || _ddg_available reg.

Definition get_search_provider (reg : registry) : option string :=
  if bool_decide (_tavily_client reg <> None) then Some "Tavily"
  else if bool_decide (_serper_api_key reg <> None) then Some "Serper"
  else if _ddg_available reg then Some "DuckDuckGo"
  else None.

(** ** Operations on values that raise on the wrong type *)

(** [v.get(k, default)]: only a dictionary has [get]. *)
Definition py_get (v : json) (k : string) (default : json) : res json :=
  match v with
  | JObj m => Ret (from_option id default (m !! k))
  | _ => Raise (Exn AttributeError "object has no attribute 'get'")
  end.

(** [v[:n]]: lists and strings can be sliced. *)
Definition py_slice_to (v : json) (n : Z) : res json :=
  match v with
  | JArr l => Ret (JArr (slice_to n l))
  | JStr s => Ret (JStr (string_of_list_ascii (slice_to n (list_ascii_of_string s))))
  | _ => Raise (Exn TypeError "object is not subscriptable")
  end.

(** The elements [for r in v] runs over: the items of a list, the
    one-character strings of a string. *)
Definition py_iter (v : json) : res (list json) :=
  match v with
  | JArr l => Ret l
  | JStr s => Ret ((fun c => JStr (String c EmptyString)) <$> list_ascii_of_string s)
  | _ => Raise (Exn TypeError "object is not iterable")
  end.

(** [v[k] = x]: item assignment with a string key needs a dictionary. *)
Definition py_setitem (v : json) (k : string) (x : json) : res dict :=
  match v with
  | JObj m => Ret (<[k := x]> m)
  | _ => Raise (Exn TypeError "object does not support item assignment")
  end.

(** ** The tools *)

Section Tools.

Variable w : world.
Variable reg : registry.

(** Lines 69-76: the keyword arguments handed to [requests.request]. *)
Definition http_request_kwargs (url method : string)
    (headers : option (gmap string string)) (data : option dict)
    (params : option (gmap string string)) (timeout : Z) : dict :=
  let kwargs : dict :=
    {[ "url" := JStr url; "method" := JStr (upper method); "timeout" := JInt timeout ]} in
  let kwargs :=
    if truthy_dict headers then <["headers" := str_dict (default ∅ headers)]> kwargs
    else kwargs in
  let kwargs :=
    if truthy_dict params then <["params" := str_dict (default ∅ params)]> kwargs
    else kwargs in
  let kwargs :=
    if truthy_dict data then <["json" := JObj (default ∅ data)]> kwargs
    else kwargs in
  kwargs.

Definition http_request (url method : string)
    (headers : option (gmap string string)) (data : option dict)
    (params : option (gmap string string)) (timeout : Z) : M dict :=
  try_except
    (let kwargs := http_request_kwargs url method headers data params timeout in
     let* _ := emit (HttpCall url) in
     let* response := lift (requests_request w kwargs) in
     let* content :=
       try_except (lift (json_body response))
         [(fun _ => true, fun _ => ret (JStr (text response)))] in
     ret ({[ "success" := JBool (status_code response <? 400);
             "status_code" := JInt (status_code response);
             "headers" := str_dict (resp_headers response);
             "content" := content;
             "url" := JStr (resp_url response) ]} : dict))
    [ (is_Timeout, fun _ =>
         ret ({[ "success" := JBool false;
                 "status_code" := JInt 0;
                 "headers" := JObj ∅;
                 "content" := JStr ("Request timed out after " +:+ pretty timeout +:+ " seconds");
                 "url" := JStr url ]} : dict));
      (is_RequestException, fun e =>
         ret ({[ "success" := JBool false;
                 "status_code" := JInt 0;
                 "headers" := JObj ∅;
                 "content" := JStr ("Request error: " +:+ exn_str e);
                 "url" := JStr url ]} : dict));
      (is_Exception, fun e =>
         ret ({[ "success" := JBool false;
                 "status_code" := JInt 0;
                 "headers" := JObj ∅;
                 "content" := JStr ("Error making request: " +:+ exn_str e);
                 "url" := JStr url ]} : dict)) ].

(** Lines 126-131: one result row of DuckDuckGo in the common vocabulary. *)
Definition ddg_item (r : json) : M json :=
  let* title := lift (py_get r "title" (JStr "")) in
  let* url := lift (py_get r "href" (JStr "")) in
  let* content := lift (py_get r "body" (JStr "")) in
  ret (JObj {[ "title" := title; "url" := url; "content" := content;
               "score" := JFloat 1 ]}).

Definition _search_duckduckgo (query : string) (max_results : Z) : M dict :=
  let* _ := emit (Invoke DuckDuckGo) in
  try_except
    (let* ddgs := lift (DDGS w) in
     let* _ := emit (BackendCall DuckDuckGo) in
     let* results := lift (ddgs_text w query max_results) in
     let* items := for_each ddg_item results in
     ret ({[ "results" := JArr items;
             "query" := JStr query;
             "provider" := JStr "duckduckgo" ]} : dict))
    [ (is_Exception, fun e =>
         ret ({[ "error" := JStr ("DuckDuckGo search error: " +:+ exn_str e);
                 "query" := JStr query ]} : dict)) ].

(** Lines 158-163: one organic result of Serper in the common vocabulary. *)
Definition serper_item (r : json) : M json :=
  let* title := lift (py_get r "title" (JStr "")) in
  let* url := lift (py_get r "link" (JStr "")) in
  let* content := lift (py_get r "snippet" (JStr "")) in
  ret (JObj {[ "title" := title; "url" := url; "content" := content;
               "score" := JFloat 1 ]}).

Definition _search_serper (query : string) (max_results : Z) : M dict :=
  let* _ := emit (Invoke Serper) in
  try_except
    (let* _ := emit (BackendCall Serper) in
     let* response :=
       lift (requests_post w "https://google.serper.dev/search"
               {[ "X-API-KEY" := from_option JStr JNull (_serper_api_key reg);
                  "Content-Type" := JStr "application/json" ]}
               {[ "q" := JStr query; "num" := JInt max_results ]}
               30) in
     let* _ := lift (raise_for_status response) in
     let* data := lift (json_body response) in
     let* organic := lift (py_get data "organic" (JArr [])) in
     let* sliced := lift (py_slice_to organic max_results) in
     let* rows := lift (py_iter sliced) in
     let* results := for_each serper_item rows in
     ret ({[ "results" := JArr results;
             "query" := JStr query;
             "provider" := JStr "serper" ]} : dict))
    [ (is_Exception, fun e =>
         ret ({[ "error" := JStr ("Serper search error: " +:+ exn_str e);
                 "query" := JStr query ]} : dict)) ].

(** [_tavily_client.search(...)]: calling a method of [None] raises. *)
Definition tavily_client_search (query : string) (max_results : Z)
    (include_raw_content : bool) (tp : topic) : M json :=
  match _tavily_client reg with
  | Some _ =>
      let* _ := emit (BackendCall Tavily) in
      lift (tavily_search w query max_results include_raw_content tp)
  | None => raise (Exn AttributeError "'NoneType' object has no attribute 'search'")
  end.

Definition _search_tavily (query : string) (max_results : Z) (tp : topic)
    (include_raw_content : bool) : M dict :=
  let* _ := emit (Invoke Tavily) in
  try_except
    (let* result := tavily_client_search query max_results include_raw_content tp in
     let* result := lift (py_setitem result "provider" (JStr "tavily")) in
     ret result)
    [ (is_Exception, fun e =>
         ret ({[ "error" := JStr ("Tavily search error: " +:+ exn_str e);
                 "query" := JStr query ]} : dict)) ].

(** One stage of [web_search]: [if cond: result = adapter(...); if "error"
    not in result: return result], followed by the rest of the function. *)
Definition attempt (cond : bool) (adapter : M dict) (rest : M dict) : M dict :=
  if cond then
    let* result := adapter in
    if negb (key_in "error" result) then ret result else rest
  else rest.

Definition web_search (query : string) (max_results : Z) (tp : topic)
    (include_raw_content : bool) : M dict :=
  attempt (bool_decide (_tavily_client reg <> None))
    (_search_tavily query max_results tp include_raw_content)
  (attempt (truthy_str (_serper_api_key reg))
    (_search_serper query max_results)
  (attempt (_ddg_available reg)
    (_search_duckduckgo query max_results)
  (ret ({[ "error" := JStr "No search provider available. Set TAVILY_API_KEY or SERPER_API_KEY, or install duckduckgo-search (pip install duckduckgo-search).";
           "query" := JStr query ]} : dict)))).

Definition fetch_url (url : string) (timeout : Z) : M dict :=
  try_except
    (let* _ := emit (HttpCall url) in
     let* response :=
       lift (requests_get w url timeout
               {[ "User-Agent" := JStr "Mozilla/5.0 (compatible; DeepAgents/1.0)" ]}) in
     let* _ := lift (raise_for_status response) in
     let* markdown_content := lift (markdownify w (text response)) in
     ret ({[ "url" := JStr (resp_url response);
             "markdown_content" := JStr markdown_content;
             "status_code" := JInt (status_code response);
             "content_length" := JInt (Z.of_nat (String.length markdown_content)) ]} : dict))
    [ (is_Exception, fun e =>
         ret ({[ "error" := JStr ("Fetch URL error: " +:+ exn_str e);
                 "url" := JStr url ]} : dict)) ].

End Tools.

(** ** Vocabulary of the statements *)

(** The fallback chain, highest priority first. *)
Definition priority_order : list provider := [Tavily; Serper; DuckDuckGo].

(** The condition under which [web_search] enters the adapter of [p]
    (lines 231, 237 and 243). *)
Definition web_search_guard (reg : registry) (p : provider) : bool :=
  match p with
  | Tavily => bool_decide (_tavily_client reg <> None)
  | Serper => truthy_str (_serper_api_key reg)
  | DuckDuckGo => _ddg_available reg
  end.

(** The adapter of [p], called the way [web_search] calls it. *)
Definition adapter (w : world) (reg : registry) (p : provider)
    (query : string) (max_results : Z) (tp : topic) (include_raw_content : bool) : M dict :=
  match p with
  | Tavily => _search_tavily w reg query max_results tp include_raw_content
  | Serper => _search_serper w reg query max_results
  | DuckDuckGo => _search_duckduckgo w query max_results
  end.

(** The dispatcher as the specification words it: invoke the adapters of a
    provider list one after the other, return the first response without an
    error, and report exhaustion when the list runs out. *)
Fixpoint fallback_chain (run : provider -> M dict) (exhausted : dict)
    (ps : list provider) : M dict :=
  match ps with
  | [] => ret exhausted
  | p :: ps' =>
      let* result := run p in
      if key_in "error" result then fallback_chain run exhausted ps' else ret result
  end.

(** The name [get_search_provider] gives to a provider. *)
Definition provider_name (p : provider) : string :=
  match p with
  | Tavily => "Tavily"
  | Serper => "Serper"
  | DuckDuckGo => "DuckDuckGo"
  end.

(** The two shapes of a search response, by their keys. *)
Definition success_shape (d : dict) : Prop :=
  dom d = ({[ "results"; "query"; "provider" ]} : gset string).

Definition failure_shape (d : dict) : Prop :=
  dom d = ({[ "error"; "query" ]} : gset string).

(** A result item built from the backend row [r]: the four fields, each
    text field the backend's value under its own key or the empty string
    when the backend has none, and the score 1.0. *)
Definition unified_item (ktitle kurl kcontent : string) (r item : json) : Prop :=
  exists mr m,
    r = JObj mr /\ item = JObj m /\
    dom m = ({[ "title"; "url"; "content"; "score" ]} : gset string) /\
    m !! "title" = Some (from_option id (JStr "") (mr !! ktitle)) /\
    m !! "url" = Some (from_option id (JStr "") (mr !! kurl)) /\
    m !! "content" = Some (from_option id (JStr "") (mr !! kcontent)) /\
    m !! "score" = Some (JFloat 1).

(** What an adapter hands to [web_search]: one of the two shapes, or, from
    Tavily, the backend's dictionary with [provider] set. *)
Definition adapter_shape (w : world) (q : string) (n : Z) (tp : topic) (raw : bool)
    (d : dict) : Prop :=
  success_shape d \/ failure_shape d \/
  exists m, tavily_search w q n raw tp = Ret (JObj m) /\ d = <["provider" := JStr "tavily"]> m.

(** An item with the four fields and a score between 0 and 1. *)
Definition well_formed_item (item : json) : Prop :=
  exists m q,
    item = JObj m /\
    is_Some (m !! "title") /\ is_Some (m !! "url") /\ is_Some (m !! "content") /\
    m !! "score" = Some (JFloat q) /\ (0 <= q)%Q /\ (q <= 1)%Q.

(** The number of items of a response, when it has a list of results. *)
Definition result_count (d : dict) : option nat :=
  match d !! "results" with
  | Some (JArr l) => Some (length l)
  | _ => None
  end.

(** Every event of the trace belongs to one of the providers [ps]. *)
Definition events_of (ps : list provider) (t : list event) : Prop :=
  Forall (fun ev => exists p, p ∈ ps /\ (ev = Invoke p \/ ev = BackendCall p)) t.


(** ** Sample worlds and registries *)

(** A world described by the outcome of each of its calls, whatever the
    arguments. *)
Definition world_of (tavily : res json) (post get request : res response)
    (ddg : res (list json)) (markdown : res string) : world :=
  {| tavily_search := fun _ _ _ _ => tavily;
     requests_post := fun _ _ _ _ => post;
     requests_get := fun _ _ _ => get;
     requests_request := fun _ => request;
     DDGS := Ret tt;
     ddgs_text := fun _ _ => ddg;
     markdownify := fun _ => markdown |}.

(** No network: every call out fails. *)
Definition offline : world :=
  world_of (Raise (Exn ConnectionError "Network is unreachable"))
           (Raise (Exn ConnectionError "Network is unreachable"))
           (Raise (Exn ConnectionError "Network is unreachable"))
           (Raise (Exn ReadTimeout "Read timed out."))
           (Raise (Exn Exception "Network is unreachable"))
           (Ret "").

Definition no_registry : registry :=
  {| _tavily_client := None; _serper_api_key := None; _ddg_available := false |}.

Definition full_registry : registry :=
  {| _tavily_client := Some "tvly-key"; _serper_api_key := Some "serper-key";
     _ddg_available := true |}.

(** The registry of a process started with [SERPER_API_KEY] set to the
    empty string, without Tavily, with the DuckDuckGo module installed. *)
Definition empty_key_registry : registry :=
  module_init {[ "SERPER_API_KEY" := "" ]} false "" false true.

(** A Serper answer with three organic results. *)
Definition serper_page : response :=
  {| status_code := 200; reason := "OK"; resp_headers := ∅; text := "";
     json_body :=
       Ret (JObj {[ "organic" :=
              JArr [ JObj {[ "title" := JStr "A"; "link" := JStr "https://a.example";
                             "snippet" := JStr "first" ]};
                     JObj {[ "title" := JStr "B"; "link" := JStr "https://b.example" ]};
                     JObj {[ "title" := JStr "C"; "snippet" := JStr "third" ]} ] ]});
     resp_url := "https://google.serper.dev/search" |}.

(** Tavily is out of quota, Serper answers. *)
Definition tavily_down : world :=
  world_of (Raise (Exn Exception "usage limit exceeded"))
           (Ret serper_page)
           (Raise (Exn ConnectionError "Network is unreachable"))
           (Raise (Exn ConnectionError "Network is unreachable"))
           (Ret [])
           (Ret "").

(** A Tavily answer in that service's own layout: more keys than the
    common response has, and a result without content or score. *)
Definition tavily_answer : dict :=
  {[ "query" := JStr "rust ownership model";
     "answer" := JNull;
     "results" := JArr [ JObj {[ "title" := JStr "Ownership"; "url" := JStr "https://doc.rust-lang.org" ]} ] ]}.

Definition tavily_up : world :=
  world_of (Ret (JObj tavily_answer))
           (Raise (Exn ConnectionError "Network is unreachable"))
           (Raise (Exn ConnectionError "Network is unreachable"))
           (Raise (Exn ConnectionError "Network is unreachable"))
           (Ret [])
           (Ret "").

(** A DuckDuckGo backend that yields two rows whatever limit it is given. *)
Definition ddg_two_rows : world :=
  world_of (Raise (Exn Exception "no client"))
           (Raise (Exn ConnectionError "Network is unreachable"))
           (Raise (Exn ConnectionError "Network is unreachable"))
           (Raise (Exn ConnectionError "Network is unreachable"))
           (Ret [ JObj {[ "title" := JStr "A"; "href" := JStr "https://a.example"; "body" := JStr "a" ]};
                  JObj {[ "title" := JStr "B"; "href" := JStr "https://b.example"; "body" := JStr "b" ]} ])
           (Ret "").

(** A server that answers every request with the given status and a page
    whose markdown is [Hello]. *)
Definition page (status : Z) (why : string) : response :=
  {| status_code := status; reason := why; resp_headers := ∅;
     text := "<p>Hello</p>"; json_body := Raise (Exn JSONDecodeError "Expecting value");
     resp_url := "https://example.org/" |}.

Definition server (status : Z) (why : string) : world :=
  world_of (Raise (Exn Exception "no client"))
           (Ret (page status why)) (Ret (page status why)) (Ret (page status why))
           (Ret [])
           (Ret "Hello").

(** ** Further vocabulary and sample worlds *)

(** The value an adapter stores under ["provider"]. *)
Definition provider_tag (p : provider) : string :=
  match p with
  | Tavily => "tavily"
  | Serper => "serper"
  | DuckDuckGo => "duckduckgo"
  end.

(** [isinstance(v, dict)] *)
Definition is_dict (v : json) : bool :=
  match v with
  | JObj _ => true
  | _ => false
  end.

(** The diagnostic [http_request] stores as [content] for an exception of
    the transport, by the first [except] clause its class matches. *)
Definition request_diagnostic (timeout : Z) (e : exn) : string :=
  if is_Timeout (exn_cls e) then
    "Request timed out after " +:+ pretty timeout +:+ " seconds"
  else if is_RequestException (exn_cls e) then "Request error: " +:+ exn_str e
  else "Error making request: " +:+ exn_str e.

(** The registry with its Tavily client taken away. *)
Definition without_tavily (reg : registry) : registry :=
  {| _tavily_client := None;
     _serper_api_key := _serper_api_key reg;
     _ddg_available := _ddg_available reg |}.

(** No Tavily client, a Serper key, the DuckDuckGo module installed. *)
Definition serper_registry : registry :=
  {| _tavily_client := None; _serper_api_key := Some "serper-key";
     _ddg_available := true |}.

(** Serper answers with the given status and body; DuckDuckGo would yield
    two rows. *)
Definition serper_says (status : Z) (why : string) (body : res json) : world :=
  world_of (Raise (Exn Exception "no client"))
           (Ret {| status_code := status; reason := why; resp_headers := ∅; text := "";
                   json_body := body; resp_url := "https://google.serper.dev/search" |})
           (Raise (Exn ConnectionError "Network is unreachable"))
           (Raise (Exn ConnectionError "Network is unreachable"))
           (Ret [ JObj {[ "title" := JStr "A"; "href" := JStr "https://a.example"; "body" := JStr "a" ]};
                  JObj {[ "title" := JStr "B"; "href" := JStr "https://b.example"; "body" := JStr "b" ]} ])
           (Ret "").

(** Three organic rows, the last of which is not an object. *)
Definition organic_with_bad_row : json :=
  JObj {[ "organic" :=
            JArr [ JObj {[ "title" := JStr "A"; "link" := JStr "https://a.example" ]};
                   JObj {[ "title" := JStr "B"; "link" := JStr "https://b.example" ]};
                   JStr "advertisement" ] ]}.

(** * Properties *)

(** ** The model on concrete inputs *)

Example upper_get : upper "get" = "GET".
Proof. reflexivity. Qed.

Example slice_to_examples :
  slice_to 2 [1; 2; 3] = [1; 2] /\ slice_to 5 [1; 2; 3] = [1; 2; 3] /\
  slice_to 0 [1; 2; 3] = [] /\ slice_to (-1) [1; 2; 3] = [1; 2] /\
  slice_to (-5) [1; 2; 3] = [].
Proof. by repeat split. Qed.

Example http_request_kwargs_plain :
  http_request_kwargs "https://example.org/" "post" (Some ∅) (Some {[ "a" := JInt 1 ]}) None 30 =
  {[ "url" := JStr "https://example.org/"; "method" := JStr "POST"; "timeout" := JInt 30;
     "json" := JObj {[ "a" := JInt 1 ]} ]}.
Proof. by vm_compute. Qed.

Example http_request_offline :
  http_request offline "https://example.org/" "get" None None None 30 =
  (Ret {[ "success" := JBool false; "status_code" := JInt 0; "headers" := JObj ∅;
          "content" := JStr "Request timed out after 30 seconds";
          "url" := JStr "https://example.org/" ]},
   [HttpCall "https://example.org/"]).
Proof. reflexivity. Qed.

Example web_search_tavily_down_trace :
  snd (web_search tavily_down full_registry "rust ownership model" 2 general false) =
  [Invoke Tavily; BackendCall Tavily; Invoke Serper; BackendCall Serper].
Proof. reflexivity. Qed.

Example _search_serper_two_of_three :
  result_count
    (match fst (_search_serper tavily_down full_registry "rust ownership model" 2) with
     | Ret d => d
     | Raise _ => ∅
     end) = Some 2%nat.
Proof. reflexivity. Qed.

(** A negative limit is a slice from the end: two of the three rows for -1. *)
Example _search_serper_negative_limit :
  result_count
    (match fst (_search_serper tavily_down full_registry "rust ownership model" (-1)) with
     | Ret d => d
     | Raise _ => ∅
     end) = Some 2%nat.
Proof. reflexivity. Qed.

Example fetch_url_hello :
  fetch_url (server 200 "OK") "https://example.org/" 30 =
  (Ret {[ "url" := JStr "https://example.org/"; "markdown_content" := JStr "Hello";
          "status_code" := JInt 200; "content_length" := JInt 5 ]},
   [HttpCall "https://example.org/"]).
Proof. reflexivity. Qed.

(** ** Running computations *)

Ltac run :=
  cbn [bind emit lift ret raise try_except find fst snd is_Exception app
       py_get py_setitem py_slice_to py_iter for_each].

(** Closes the branch in which an adapter took its [except] clause. *)
Ltac fails := right; eexists _, _; split; [reflexivity|]; by repeat constructor.

Lemma unified_item_intro (ktitle kurl kcontent : string) (mr : dict) :
  unified_item ktitle kurl kcontent (JObj mr)
    (JObj {[ "title" := from_option id (JStr "") (mr !! ktitle);
             "url" := from_option id (JStr "") (mr !! kurl);
             "content" := from_option id (JStr "") (mr !! kcontent);
             "score" := JFloat 1 ]}).
Proof.
  eexists mr, _. split; [done|]. split; [done|].
  split; [|by repeat split].
  rewrite !dom_insert_L, dom_singleton_L. set_solver.
Qed.

Lemma ddg_item_cases (r : json) :
  (exists item, ddg_item r = (Ret item, []) /\ unified_item "title" "href" "body" r item)
  \/ (exists e, ddg_item r = (Raise e, [])).
Proof.
  destruct r; try (right; eexists; reflexivity).
  left. eexists. split; [reflexivity|]. apply unified_item_intro.
Qed.

Lemma serper_item_cases (r : json) :
  (exists item, serper_item r = (Ret item, []) /\ unified_item "title" "link" "snippet" r item)
  \/ (exists e, serper_item r = (Raise e, [])).
Proof.
  destruct r; try (right; eexists; reflexivity).
  left. eexists. split; [reflexivity|]. apply unified_item_intro.
Qed.

(** A loop whose body neither calls out nor depends on earlier rounds either
    returns one output per input or raises, and leaves no event. *)
Lemma for_each_cases {A B} (f : A -> M B) (P : A -> B -> Prop) (l : list A) :
  (forall x, (exists y, f x = (Ret y, []) /\ P x y) \/ (exists e, f x = (Raise e, []))) ->
  (exists ys, for_each f l = (Ret ys, []) /\ Forall2 P l ys)
  \/ (exists e, for_each f l = (Raise e, [])).
Proof.
  intros Hf. induction l as [|x l IH]; [left; exists []; by split|].
  cbn [for_each]. destruct (Hf x) as [(y & -> & Hy)|(e & ->)]; [|right; by exists e].
  destruct IH as [(ys & -> & Hys)|(e & ->)]; [left|right; by exists e].
  exists (y :: ys). split; [done|]. by constructor.
Qed.

Lemma _search_tavily_cases w reg q n tp raw :
  (exists m,
     _tavily_client reg <> None /\
     tavily_search w q n raw tp = Ret (JObj m) /\
     _search_tavily w reg q n tp raw =
       (Ret (<["provider" := JStr "tavily"]> m), [Invoke Tavily; BackendCall Tavily]))
  \/ (exists msg t,
     _search_tavily w reg q n tp raw =
       (Ret {[ "error" := JStr ("Tavily search error: " +:+ msg); "query" := JStr q ]},
        Invoke Tavily :: t) /\
     Forall (eq (BackendCall Tavily)) t).
Proof.
  unfold _search_tavily, tavily_client_search.
  destruct (_tavily_client reg) eqn:Hc;
    [destruct (tavily_search w q n raw tp) as [[]|]|]; run;
    try fails.
  left. eexists. by repeat split.
Qed.

Lemma _search_duckduckgo_cases w q n :
  (exists rows items,
     ddgs_text w q n = Ret rows /\
     Forall2 (unified_item "title" "href" "body") rows items /\
     _search_duckduckgo w q n =
       (Ret {[ "results" := JArr items; "query" := JStr q;
               "provider" := JStr "duckduckgo" ]},
        [Invoke DuckDuckGo; BackendCall DuckDuckGo]))
  \/ (exists msg t,
     _search_duckduckgo w q n =
       (Ret {[ "error" := JStr ("DuckDuckGo search error: " +:+ msg); "query" := JStr q ]},
        Invoke DuckDuckGo :: t) /\
     Forall (eq (BackendCall DuckDuckGo)) t).
Proof.
  unfold _search_duckduckgo.
  destruct (DDGS w) as [[]|]; [destruct (ddgs_text w q n) as [rows|]|]; run;
    try fails.
  destruct (for_each_cases ddg_item _ rows ddg_item_cases) as [(items & -> & Hitems)|(e & ->)]; run.
  - left. exists rows, items. by repeat split.
  - fails.
Qed.

Lemma slice_to_length {A} (n : Z) (l : list A) :
  0 <= n -> (length (slice_to n l) <= Z.to_nat n)%nat.
Proof.
  intros Hn. unfold slice_to. destruct (0 <=? n) eqn:E; [|lia].
  rewrite length_take. lia.
Qed.

Lemma sliced_rows_length (v sliced : json) (n : Z) (rows : list json) :
  py_slice_to v n = Ret sliced -> py_iter sliced = Ret rows ->
  0 <= n -> (length rows <= Z.to_nat n)%nat.
Proof.
  intros Hs Hi Hn. destruct v; simplify_eq/=.
  - rewrite length_fmap, list_ascii_of_string_of_list_ascii. by apply slice_to_length.
  - by apply slice_to_length.
Qed.

Lemma _search_serper_cases w reg q n :
  (exists resp data organic sliced rows items,
     requests_post w "https://google.serper.dev/search"
       {[ "X-API-KEY" := from_option JStr JNull (_serper_api_key reg);
          "Content-Type" := JStr "application/json" ]}
       {[ "q" := JStr q; "num" := JInt n ]} 30 = Ret resp /\
     json_body resp = Ret data /\
     py_get data "organic" (JArr []) = Ret organic /\
     py_slice_to organic n = Ret sliced /\
     py_iter sliced = Ret rows /\
     Forall2 (unified_item "title" "link" "snippet") rows items /\
     _search_serper w reg q n =
       (Ret {[ "results" := JArr items; "query" := JStr q; "provider" := JStr "serper" ]},
        [Invoke Serper; BackendCall Serper]))
  \/ (exists msg t,
     _search_serper w reg q n =
       (Ret {[ "error" := JStr ("Serper search error: " +:+ msg); "query" := JStr q ]},
        Invoke Serper :: t) /\
     Forall (eq (BackendCall Serper)) t).
Proof.
  unfold _search_serper.
  destruct (requests_post _ _ _ _ _) as [resp|] eqn:Hpost; run;
    [|fails].
  destruct (raise_for_status resp) as [[]|]; run;
    [|fails].
  destruct (json_body resp) as [data|] eqn:Hjson; run;
    [|fails].
  destruct (py_get data "organic" (JArr [])) as [organic|] eqn:Hget; run;
    [|fails].
  destruct (py_slice_to organic n) as [sliced|] eqn:Hslice; run;
    [|fails].
  destruct (py_iter sliced) as [rows|] eqn:Hiter; run;
    [|fails].
  destruct (for_each_cases serper_item _ rows serper_item_cases)
    as [(items & -> & Hitems)|(e & ->)]; run.
  - left. exists resp, data, organic, sliced, rows, items. by repeat split.
  - fails.
Qed.

Lemma adapter_returns w reg p q n tp raw :
  exists d t,
    adapter w reg p q n tp raw = (Ret d, Invoke p :: t) /\ Forall (eq (BackendCall p)) t.
Proof.
  destruct p; cbn [adapter].
  - destruct (_search_tavily_cases w reg q n tp raw) as [(m & _ & _ & ->)|(msg & t & -> & Ht)];
      eexists _, _; split; try reflexivity; by repeat constructor.
  - destruct (_search_serper_cases w reg q n)
      as [(? & ? & ? & ? & ? & ? & _ & _ & _ & _ & _ & _ & ->)|(msg & t & -> & Ht)];
      eexists _, _; split; try reflexivity; by repeat constructor.
  - destruct (_search_duckduckgo_cases w q n) as [(? & ? & _ & _ & ->)|(msg & t & -> & Ht)];
      eexists _, _; split; try reflexivity; by repeat constructor.
Qed.

Lemma attempt_true (a rest rest' : M dict) :
  rest = rest' ->
  attempt true a rest =
  (let* result := a in if key_in "error" result then rest' else ret result).
Proof.
  intros ->. unfold attempt, bind. destruct a as [[d|e] t]; [|done].
  by destruct (key_in "error" d).
Qed.

(** [web_search] is the specification's chain over the providers that pass
    its guards, in priority order. *)
Lemma web_search_chain w reg q n tp raw :
  web_search w reg q n tp raw =
  fallback_chain (fun p => adapter w reg p q n tp raw)
    {[ "error" := JStr "No search provider available. Set TAVILY_API_KEY or SERPER_API_KEY, or install duckduckgo-search (pip install duckduckgo-search).";
       "query" := JStr q ]}
    (List.filter (web_search_guard reg) priority_order).
Proof.
  unfold web_search. cbn [List.filter priority_order web_search_guard].
  destruct (bool_decide (_tavily_client reg <> None));
    destruct (truthy_str (_serper_api_key reg));
    destruct (_ddg_available reg);
    cbn [fallback_chain adapter];
    repeat first [ apply attempt_true | reflexivity ].
Qed.

Lemma invoked_adapter_trace (p : provider) (t : list event) :
  Forall (eq (BackendCall p)) t -> invoked (Invoke p :: t) = [p].
Proof.
  intros Ht. unfold invoked. cbn [omap list_omap]. f_equal.
  induction Ht as [|ev t <- _ IH]; [done|]. by cbn [omap].
Qed.

Lemma events_of_mono ps ps' t : ps ⊆ ps' -> events_of ps t -> events_of ps' t.
Proof.
  intros Hsub Ht. eapply Forall_impl; [exact Ht|].
  intros ev (p & Hp & Hev). exists p. split; [by apply Hsub|done].
Qed.

Lemma events_of_adapter_trace (p : provider) (t : list event) :
  Forall (eq (BackendCall p)) t -> events_of [p] (Invoke p :: t).
Proof.
  intros Ht. constructor; [exists p; split; [set_solver|by left]|].
  eapply Forall_impl; [exact Ht|]. intros ev <-. exists p. split; [set_solver|by right].
Qed.

Lemma invoked_app (t1 t2 : list event) : invoked (t1 ++ t2) = invoked t1 ++ invoked t2.
Proof. apply omap_app. Qed.

(** The chain stops at the first provider whose response has no error:
    that response is returned and the providers entered are those before it
    and itself. *)
Lemma fallback_chain_first_success (run : provider -> M dict) (exh : dict)
    (pre : list provider) (p : provider) (post : list provider) (d : dict) :
  (forall p', exists d' t, run p' = (Ret d', Invoke p' :: t) /\ Forall (eq (BackendCall p')) t) ->
  Forall (fun p' => exists d', fst (run p') = Ret d' /\ key_in "error" d' = true) pre ->
  fst (run p) = Ret d -> key_in "error" d = false ->
  fst (fallback_chain run exh (pre ++ p :: post)) = Ret d /\
  invoked (snd (fallback_chain run exh (pre ++ p :: post))) = pre ++ [p] /\
  events_of (pre ++ [p]) (snd (fallback_chain run exh (pre ++ p :: post))).
Proof.
  intros Hrun Hpre Hp Hd. induction Hpre as [|p' pre (d' & Hd' & He') _ IH].
  - cbn [app fallback_chain]. destruct (Hrun p) as (d0 & t & Heq & Ht).
    rewrite Heq in Hp |- *. cbn in Hp. simplify_eq. cbn [bind]. rewrite Hd.
    cbn [ret fst snd]. rewrite app_nil_r.
    split; [done|]. split; [by apply invoked_adapter_trace|by apply events_of_adapter_trace].
  - cbn [app fallback_chain]. destruct (Hrun p') as (d0 & t & Heq & Ht).
    rewrite Heq in Hd' |- *. cbn in Hd'. simplify_eq. cbn [bind]. rewrite He'.
    destruct (fallback_chain run exh (pre ++ p :: post)) as [r tr].
    cbn [fst snd] in IH |- *. destruct IH as (-> & Hinv & Hev).
    split; [done|]. split.
    + by rewrite invoked_app, (invoked_adapter_trace p' t Ht), Hinv.
    + apply Forall_app. split.
      * eapply events_of_mono; [|by apply events_of_adapter_trace]. set_solver.
      * eapply events_of_mono; [|exact Hev]. set_solver.
Qed.


(** When every provider of the list answers with an error, the chain goes
    through all of them and reports exhaustion. *)
Lemma fallback_chain_exhausted (run : provider -> M dict) (exh : dict) (ps : list provider) :
  (forall p', exists d' t, run p' = (Ret d', Invoke p' :: t) /\ Forall (eq (BackendCall p')) t) ->
  Forall (fun p' => exists d', fst (run p') = Ret d' /\ key_in "error" d' = true) ps ->
  fst (fallback_chain run exh ps) = Ret exh /\
  invoked (snd (fallback_chain run exh ps)) = ps.
Proof.
  intros Hrun Hps. induction Hps as [|p' ps (d' & Hd' & He') _ IH]; [done|].
  cbn [fallback_chain]. destruct (Hrun p') as (d0 & t & Heq & Ht).
  rewrite Heq in Hd' |- *. cbn in Hd'. simplify_eq. cbn [bind]. rewrite He'.
  destruct (fallback_chain run exh ps) as [r tr]. cbn [fst snd] in IH |- *.
  destruct IH as [-> Hinv]. split; [done|].
  by rewrite invoked_app, (invoked_adapter_trace p' t Ht), Hinv.
Qed.

(** C1: whatever the registry holds and whatever the query, [web_search]
    goes through the providers that pass its guards in the order Tavily,
    Serper, DuckDuckGo; when [p] is the first of them whose adapter answers
    without an ["error"] key, that answer is what [web_search] returns, the
    adapters entered are exactly those before [p] and [p] itself, in that
    order, and no event of the run belongs to a later provider. *)
Theorem web_search_first_success (w : world) (reg : registry) (q : string) (n : Z)
    (tp : topic) (raw : bool) (pre : list provider) (p : provider)
    (post : list provider) (d : dict) :
  List.filter (web_search_guard reg) priority_order = pre ++ p :: post ->
  Forall (fun p' => exists d', fst (adapter w reg p' q n tp raw) = Ret d' /\
                               key_in "error" d' = true) pre ->
  fst (adapter w reg p q n tp raw) = Ret d ->
  key_in "error" d = false ->
  fst (web_search w reg q n tp raw) = Ret d /\
  invoked (snd (web_search w reg q n tp raw)) = pre ++ [p] /\
  events_of (pre ++ [p]) (snd (web_search w reg q n tp raw)).
Proof.
  intros Havail Hpre Hp Hd. rewrite web_search_chain, Havail.
  apply fallback_chain_first_success; try done.
  intros p'. apply adapter_returns.
Qed.

Lemma web_search_first_success_witness :
  exists d,
    fst (web_search tavily_down full_registry "rust ownership model" 2 general false) = Ret d /\
    d !! "provider" = Some (JStr "serper") /\
    invoked (snd (web_search tavily_down full_registry "rust ownership model" 2 general false))
      = [Tavily; Serper].
Proof.
  eexists.
  assert (Hpre : Forall (fun p' => exists d',
                    fst (adapter tavily_down full_registry p' "rust ownership model" 2
                           general false) = Ret d' /\ key_in "error" d' = true) [Tavily]).
  { constructor; [|constructor]. eexists. split; reflexivity. }
  destruct (web_search_first_success tavily_down full_registry "rust ownership model" 2
              general false [Tavily] Serper [DuckDuckGo] _ eq_refl Hpre eq_refl eq_refl)
    as (Hd & Hinv & _).
  split; [exact Hd|]. split; [reflexivity|exact Hinv].
Defined.

(** When every adapter that passes its guard answers with an error,
    [web_search] has entered each of them, in priority order, and returns
    the failure dictionary of exhaustion. *)
Lemma web_search_exhausted w reg q n tp raw :
  Forall (fun p' => exists d', fst (adapter w reg p' q n tp raw) = Ret d' /\
                               key_in "error" d' = true)
         (List.filter (web_search_guard reg) priority_order) ->
  fst (web_search w reg q n tp raw) =
    Ret {[ "error" := JStr "No search provider available. Set TAVILY_API_KEY or SERPER_API_KEY, or install duckduckgo-search (pip install duckduckgo-search).";
           "query" := JStr q ]} /\
  invoked (snd (web_search w reg q n tp raw)) =
    List.filter (web_search_guard reg) priority_order.
Proof.
  intros Hall. rewrite web_search_chain.
  apply fallback_chain_exhausted; [|done]. intros p'. apply adapter_returns.
Qed.

(** ** The dispatcher without providers *)

(** C2: when the registry has no provider (no Tavily client, no Serper
    key, no DuckDuckGo module), [web_search] returns the failure dictionary,
    with the fixed message and the query it was given, and its trace is
    empty: no adapter is entered and nothing is called. *)
Theorem web_search_no_provider (w : world) (reg : registry) (q : string) (n : Z)
    (tp : topic) (raw : bool) :
  is_search_available reg = false ->
  web_search w reg q n tp raw =
    (Ret {[ "error" := JStr "No search provider available. Set TAVILY_API_KEY or SERPER_API_KEY, or install duckduckgo-search (pip install duckduckgo-search).";
            "query" := JStr q ]}, []).
Proof.
  unfold is_search_available. intros Hno.
  apply orb_false_elim in Hno as [Hno Hddg]. apply orb_false_elim in Hno as [Htav Hkey].
  apply bool_decide_eq_false in Hkey. apply dec_stable in Hkey.
  unfold web_search. rewrite Htav, Hkey, Hddg. reflexivity.
Qed.

Lemma web_search_no_provider_witness :
  is_search_available no_registry = false /\
  web_search offline no_registry "rust ownership model" 3 general false =
    (Ret {[ "error" := JStr "No search provider available. Set TAVILY_API_KEY or SERPER_API_KEY, or install duckduckgo-search (pip install duckduckgo-search).";
            "query" := JStr "rust ownership model" ]}, []).
Proof.
  split; [reflexivity|].
  apply (web_search_no_provider offline no_registry "rust ownership model" 3 general false).
  reflexivity.
Defined.

(** ** The HTTP request tool *)

(** The outcome [http_request] builds when [requests] raised. *)
Lemma http_request_fault w url method headers data params timeout e :
  requests_request w (http_request_kwargs url method headers data params timeout) = Raise e ->
  exists diagnostic,
    http_request w url method headers data params timeout =
      (Ret {[ "success" := JBool false; "status_code" := JInt 0; "headers" := JObj ∅;
              "content" := JStr diagnostic; "url" := JStr url ]}, [HttpCall url]) /\
    (diagnostic = "Request timed out after " +:+ pretty timeout +:+ " seconds"
     \/ diagnostic = "Request error: " +:+ exn_str e
     \/ diagnostic = "Error making request: " +:+ exn_str e).
Proof.
  intros Hreq. unfold http_request. cbv zeta. rewrite Hreq.
  cbn [bind emit lift fst snd app try_except find].
  destruct (is_Timeout (exn_cls e)); [|destruct (is_RequestException (exn_cls e))];
    cbn [bind emit lift ret fst snd app try_except find is_Exception];
    eexists; (split; [reflexivity|]); auto.
Qed.

(** The outcome [http_request] builds from a response. *)
Lemma http_request_completed w url method headers data params timeout resp :
  requests_request w (http_request_kwargs url method headers data params timeout) = Ret resp ->
  exists content,
    http_request w url method headers data params timeout =
      (Ret {[ "success" := JBool (status_code resp <? 400);
              "status_code" := JInt (status_code resp);
              "headers" := str_dict (resp_headers resp);
              "content" := content;
              "url" := JStr (resp_url resp) ]}, [HttpCall url]) /\
    (json_body resp = Ret content \/
     (exists e, json_body resp = Raise e) /\ content = JStr (text resp)).
Proof.
  intros Hreq. unfold http_request. cbv zeta. rewrite Hreq.
  cbn [bind emit lift fst snd app].
  destruct (json_body resp) as [v|e];
    cbn [bind emit lift ret fst snd app try_except find];
    eexists; (split; [reflexivity|]); eauto.
Qed.

(** C3: [http_request] returns a dictionary for every input and every
    behaviour of the transport; when the transport raised (a timeout, a
    connection fault, anything else), that dictionary has [success] false,
    [status_code] 0, empty [headers] and, as [content], one of the three
    diagnostic sentences. *)
Theorem http_request_never_raises (w : world) (url method : string)
    (headers : option (gmap string string)) (data : option dict)
    (params : option (gmap string string)) (timeout : Z) :
  exists o,
    fst (http_request w url method headers data params timeout) = Ret o /\
    forall e,
      requests_request w (http_request_kwargs url method headers data params timeout) = Raise e ->
      exists diagnostic,
        o = {[ "success" := JBool false; "status_code" := JInt 0; "headers" := JObj ∅;
               "content" := JStr diagnostic; "url" := JStr url ]} /\
        (diagnostic = "Request timed out after " +:+ pretty timeout +:+ " seconds"
         \/ diagnostic = "Request error: " +:+ exn_str e
         \/ diagnostic = "Error making request: " +:+ exn_str e).
Proof.
  destruct (requests_request w (http_request_kwargs url method headers data params timeout))
    as [resp|e] eqn:Hreq.
  - destruct (http_request_completed _ _ _ _ _ _ _ _ Hreq) as (content & -> & _).
    eexists. split; [reflexivity|]. intros e He. discriminate He.
  - destruct (http_request_fault _ _ _ _ _ _ _ _ Hreq) as (diagnostic & -> & Hd).
    eexists. split; [reflexivity|]. intros e' He'. injection He' as <-. by exists diagnostic.
Qed.

Lemma http_request_never_raises_witness :
  exists o,
    fst (http_request offline "https://example.org/" "get" None None None 30) = Ret o /\
    o !! "status_code" = Some (JInt 0) /\ o !! "success" = Some (JBool false).
Proof.
  destruct (http_request_never_raises offline "https://example.org/" "get" None None None 30)
    as (o & Ho & Hfault).
  exists o. split; [exact Ho|].
  destruct (Hfault (Exn ReadTimeout "Read timed out.") eq_refl) as (diagnostic & Heq & _).
  rewrite Heq. split; reflexivity.
Defined.

(** C8: when the transport completed with a response, the dictionary
    [http_request] returns carries that response's status, and its
    [success] is true exactly when the status is below 400. *)
Theorem http_request_success_iff (w : world) (url method : string)
    (headers : option (gmap string string)) (data : option dict)
    (params : option (gmap string string)) (timeout : Z) (resp : response) :
  requests_request w (http_request_kwargs url method headers data params timeout) = Ret resp ->
  exists o success,
    fst (http_request w url method headers data params timeout) = Ret o /\
    o !! "success" = Some (JBool success) /\
    o !! "status_code" = Some (JInt (status_code resp)) /\
    (success = true <-> status_code resp < 400).
Proof.
  intros Hreq. destruct (http_request_completed _ _ _ _ _ _ _ _ Hreq) as (content & -> & _).
  eexists _, _. split; [reflexivity|]. split; [reflexivity|]. split; [reflexivity|].
  apply Z.ltb_lt.
Qed.

Lemma http_request_success_iff_witness :
  exists o success,
    fst (http_request (server 404 "Not Found") "https://example.org/" "get" None None None 30) = Ret o /\
    o !! "success" = Some (JBool success) /\
    o !! "status_code" = Some (JInt 404) /\
    (success = true <-> 404 < 400).
Proof.
  apply (http_request_success_iff (server 404 "Not Found") "https://example.org/" "get"
           None None None 30 (page 404 "Not Found")).
  reflexivity.
Defined.

(** C10: an empty dictionary given as [headers], [params] or [data] is
    left out of the keyword arguments like [None]: the key is absent, the
    request handed to [requests] is the one built without the argument, and
    so is the outcome. *)
Theorem http_request_empty_dict_omitted (w : world) (url method : string)
    (headers : option (gmap string string)) (data : option dict)
    (params : option (gmap string string)) (timeout : Z) :
  (http_request_kwargs url method (Some ∅) data params timeout !! "headers" = None /\
   http_request_kwargs url method headers data (Some ∅) timeout !! "params" = None /\
   http_request_kwargs url method headers (Some ∅) params timeout !! "json" = None) /\
  (http_request_kwargs url method (Some ∅) data params timeout =
     http_request_kwargs url method None data params timeout /\
   http_request_kwargs url method headers data (Some ∅) timeout =
     http_request_kwargs url method headers data None timeout /\
   http_request_kwargs url method headers (Some ∅) params timeout =
     http_request_kwargs url method headers None params timeout) /\
  (http_request w url method (Some ∅) data params timeout =
     http_request w url method None data params timeout /\
   http_request w url method headers data (Some ∅) timeout =
     http_request w url method headers data None timeout /\
   http_request w url method headers (Some ∅) params timeout =
     http_request w url method headers None params timeout).
Proof.
  split; [|split; [by repeat split|by repeat split]].
  unfold http_request_kwargs. cbv zeta.
  destruct (truthy_dict headers), (truthy_dict data), (truthy_dict params);
    cbn [truthy_dict bool_decide negb]; by repeat split.
Qed.

(** ** The page fetcher *)

Lemma fetch_url_returns w url timeout :
  exists d, fst (fetch_url w url timeout) = Ret d.
Proof.
  unfold fetch_url.
  destruct (requests_get w url timeout _) as [resp|]; run; [|by eexists].
  destruct (raise_for_status resp) as [[]|]; run; [|by eexists].
  destruct (markdownify w (text resp)); run; by eexists.
Qed.

Lemma raise_for_status_error (resp : response) :
  400 <= status_code resp < 600 ->
  exists kind,
    (kind = "Client" \/ kind = "Server") /\
    raise_for_status resp =
      Raise (Exn HTTPError (pretty (status_code resp) +:+ " " +:+ kind +:+ " Error: "
                            +:+ reason resp +:+ " for url: " +:+ resp_url resp)).
Proof.
  intros Hs. unfold raise_for_status.
  destruct (decide (status_code resp < 500)) as [Hlt|Hge].
  - exists "Client". split; [by left|].
    replace (400 <=? status_code resp) with true by lia.
    replace (status_code resp <? 500) with true by lia. done.
  - exists "Server". split; [by right|].
    replace (status_code resp <? 500) with false by lia.
    replace (500 <=? status_code resp) with true by lia.
    replace (status_code resp <? 600) with true by lia.
    rewrite andb_false_r. done.
Qed.

(** C7, as the code has it: for a response whose status is a client or
    server error (400 to 599), [fetch_url] returns exactly the dictionary
    with [error] and [url], the message starting with the status code and
    carrying the reason, and no markdown; and [fetch_url] returns a
    dictionary whatever the transport and the converter do. *)
Theorem fetch_url_http_error (w : world) (url : string) (timeout : Z) (resp : response) :
  requests_get w url timeout
    {[ "User-Agent" := JStr "Mozilla/5.0 (compatible; DeepAgents/1.0)" ]} = Ret resp ->
  400 <= status_code resp < 600 ->
  (exists kind,
     (kind = "Client" \/ kind = "Server") /\
     fetch_url w url timeout =
       (Ret {[ "error" := JStr ("Fetch URL error: " +:+ pretty (status_code resp) +:+ " "
                                +:+ kind +:+ " Error: " +:+ reason resp
                                +:+ " for url: " +:+ resp_url resp);
               "url" := JStr url ]}, [HttpCall url])) /\
  (forall url' timeout', exists d, fst (fetch_url w url' timeout') = Ret d).
Proof.
  intros Hget Hs. split; [|intros; apply fetch_url_returns].
  destruct (raise_for_status_error resp Hs) as (kind & Hkind & Hraise).
  exists kind. split; [done|].
  unfold fetch_url. rewrite Hget. run. rewrite Hraise. run. reflexivity.
Qed.

Lemma fetch_url_http_error_witness :
  exists kind,
    fetch_url (server 404 "Not Found") "https://example.org/missing" 30 =
      (Ret {[ "error" := JStr ("Fetch URL error: 404 " +:+ kind
                               +:+ " Error: Not Found for url: https://example.org/");
              "url" := JStr "https://example.org/missing" ]},
       [HttpCall "https://example.org/missing"]).
Proof.
  destruct (fetch_url_http_error (server 404 "Not Found") "https://example.org/missing" 30
              (page 404 "Not Found") eq_refl ltac:(cbn; lia)) as [(kind & _ & Heq) _].
  exists kind. exact Heq.
Defined.

(** C7 as stated fails: a status of 400 or more that is not a 4xx or 5xx
    status (999 here) is not an error for [raise_for_status], and the page
    comes back as markdown. *)
Lemma fetch_url_status_999_is_success :
  exists resp d,
    requests_get (server 999 "Request denied") "https://example.org/" 30
      {[ "User-Agent" := JStr "Mozilla/5.0 (compatible; DeepAgents/1.0)" ]} = Ret resp /\
    400 <= status_code resp /\
    fst (fetch_url (server 999 "Request denied") "https://example.org/" 30) = Ret d /\
    key_in "error" d = false /\
    d !! "markdown_content" = Some (JStr "Hello") /\
    d !! "status_code" = Some (JInt 999).
Proof.
  eexists _, _. split; [reflexivity|]. split; [cbn; lia|].
  split; [reflexivity|]. by repeat split.
Qed.

(** ** The adapters' responses *)

Lemma unified_item_well_formed (ktitle kurl kcontent : string) (r item : json) :
  unified_item ktitle kurl kcontent r item -> well_formed_item item.
Proof.
  intros (mr & m & _ & -> & _ & Ht & Hu & Hc & Hs).
  exists m, 1%Q. rewrite Ht, Hu, Hc. by repeat split.
Qed.

Lemma key_in_insert_ne (k k' : string) (v : json) (d : dict) :
  k <> k' -> key_in k (<[k' := v]> d) = key_in k d.
Proof. intros Hne. unfold key_in. by rewrite lookup_insert_ne. Qed.

(** C4, as the code has it: every item the DuckDuckGo and Serper adapters
    return is built from one backend row, has exactly the four fields, takes
    each text field from the row (the empty string when the row has none)
    and has the score 1.0, which lies between 0 and 1; the Tavily adapter
    returns the backend's dictionary, hence its items, as they are, with
    [provider] set. *)
Theorem adapter_items (w : world) (reg : registry) (q : string) (n : Z)
    (tp : topic) (raw : bool) :
  (exists d,
     fst (_search_duckduckgo w q n) = Ret d /\
     (key_in "error" d = true \/
      exists rows items,
        ddgs_text w q n = Ret rows /\
        d !! "results" = Some (JArr items) /\
        Forall2 (unified_item "title" "href" "body") rows items /\
        Forall well_formed_item items)) /\
  (exists d,
     fst (_search_serper w reg q n) = Ret d /\
     (key_in "error" d = true \/
      exists resp data organic sliced rows items,
        requests_post w "https://google.serper.dev/search"
          {[ "X-API-KEY" := from_option JStr JNull (_serper_api_key reg);
             "Content-Type" := JStr "application/json" ]}
          {[ "q" := JStr q; "num" := JInt n ]} 30 = Ret resp /\
        json_body resp = Ret data /\
        py_get data "organic" (JArr []) = Ret organic /\
        py_slice_to organic n = Ret sliced /\
        py_iter sliced = Ret rows /\
        d !! "results" = Some (JArr items) /\
        Forall2 (unified_item "title" "link" "snippet") rows items /\
        Forall well_formed_item items)) /\
  (exists d,
     fst (_search_tavily w reg q n tp raw) = Ret d /\
     (failure_shape d \/
      exists m,
        tavily_search w q n raw tp = Ret (JObj m) /\
        d = <["provider" := JStr "tavily"]> m /\
        d !! "results" = m !! "results")).
Proof.
  assert (Hwf : forall kt ku kc rows items,
             Forall2 (unified_item kt ku kc) rows items -> Forall well_formed_item items).
  { intros kt ku kc rows items H. induction H; constructor;
      eauto using unified_item_well_formed. }
  split; [|split].
  - destruct (_search_duckduckgo_cases w q n)
      as [(rows & items & Hrows & Hitems & ->)|(msg & t & -> & _)];
      eexists; (split; [reflexivity|]); [right|by left].
    exists rows, items. repeat split; eauto.
  - destruct (_search_serper_cases w reg q n)
      as [(resp & data & organic & sliced & rows & items & ? & ? & ? & ? & ? & Hitems & ->)
         |(msg & t & -> & _)];
      eexists; (split; [reflexivity|]); [right|by left].
    exists resp, data, organic, sliced, rows, items. repeat split; eauto.
  - destruct (_search_tavily_cases w reg q n tp raw)
      as [(m & _ & Hm & ->)|(msg & t & -> & _)];
      eexists; (split; [reflexivity|]); [right|left].
    + exists m. repeat split; [done|]. by rewrite lookup_insert_ne.
    + unfold failure_shape. rewrite dom_insert_L, dom_singleton_L. set_solver.
Qed.

(** C4 as stated fails for Tavily: an item the backend sent without content
    and score is returned without them. *)
Lemma _search_tavily_item_as_sent :
  exists d item,
    fst (_search_tavily tavily_up full_registry "rust ownership model" 5 general false) = Ret d /\
    key_in "error" d = false /\
    d !! "results" = Some (JArr [item]) /\
    ~ well_formed_item item.
Proof.
  eexists _, _. split; [reflexivity|]. split; [reflexivity|]. split; [reflexivity|].
  intros (m & s & Heq & _ & _ & _ & Hscore & _).
  injection Heq as <-. discriminate Hscore.
Qed.

(** C5, as the code has it: for a limit that is not negative, a Serper
    response without error has at most [max_results] items, whatever the
    backend sent, because the adapter slices; the DuckDuckGo adapter returns
    one item per row the backend yields and the Tavily adapter returns the
    backend's results as they are, the limit being passed on to the
    backend. *)
Theorem adapter_result_count (w : world) (reg : registry) (q : string) (n : Z)
    (tp : topic) (raw : bool) :
  0 <= n ->
  (exists d,
     fst (_search_serper w reg q n) = Ret d /\
     (key_in "error" d = true \/
      exists k, result_count d = Some k /\ (k <= Z.to_nat n)%nat)) /\
  (exists d,
     fst (_search_duckduckgo w q n) = Ret d /\
     (key_in "error" d = true \/
      exists rows, ddgs_text w q n = Ret rows /\ result_count d = Some (length rows))) /\
  (exists d,
     fst (_search_tavily w reg q n tp raw) = Ret d /\
     (key_in "error" d = true \/
      exists m, tavily_search w q n raw tp = Ret (JObj m) /\
                d !! "results" = m !! "results")).
Proof.
  intros Hn. split; [|split].
  - destruct (_search_serper_cases w reg q n)
      as [(resp & data & organic & sliced & rows & items & _ & _ & _ & Hs & Hi & Hitems & ->)
         |(msg & t & -> & _)];
      eexists; (split; [reflexivity|]); [right|by left].
    exists (length items). split; [done|].
    rewrite <- (Forall2_length _ _ _ Hitems). by eapply sliced_rows_length.
  - destruct (_search_duckduckgo_cases w q n)
      as [(rows & items & Hrows & Hitems & ->)|(msg & t & -> & _)];
      eexists; (split; [reflexivity|]); [right|by left].
    exists rows. split; [done|]. unfold result_count.
    by rewrite (Forall2_length _ _ _ Hitems).
  - destruct (_search_tavily_cases w reg q n tp raw)
      as [(m & _ & Hm & ->)|(msg & t & -> & _)];
      eexists; (split; [reflexivity|]); [right|by left].
    exists m. split; [done|]. by rewrite lookup_insert_ne.
Qed.

Lemma adapter_result_count_witness :
  exists d k,
    fst (_search_serper tavily_down full_registry "rust ownership model" 2) = Ret d /\
    result_count d = Some k /\ (k <= 2)%nat.
Proof.
  destruct (adapter_result_count tavily_down full_registry "rust ownership model" 2
              general false ltac:(lia)) as [(d & Hd & Hcount) _].
  exists d. destruct Hcount as [Herr|(k & Hk & Hle)].
  - exfalso. vm_compute in Hd. injection Hd as <-. discriminate Herr.
  - exists k. by repeat split.
Defined.

(** C5 as stated fails for DuckDuckGo: the adapter keeps every row the
    backend yields, here two for a limit of one. *)
Lemma _search_duckduckgo_over_limit :
  exists d,
    fst (_search_duckduckgo ddg_two_rows "rust ownership model" 1) = Ret d /\
    key_in "error" d = false /\
    result_count d = Some 2%nat /\
    ~ (2 <= Z.to_nat 1)%nat.
Proof.
  eexists. split; [reflexivity|]. split; [reflexivity|]. split; [reflexivity|]. cbn. lia.
Qed.

(** ** The shape of the responses *)

Lemma success_shape_intro (items : list json) (q provider : string) :
  success_shape {[ "results" := JArr items; "query" := JStr q; "provider" := JStr provider ]}.
Proof. unfold success_shape. rewrite !dom_insert_L, dom_singleton_L. set_solver. Qed.

Lemma failure_shape_intro (msg q : string) :
  failure_shape {[ "error" := JStr msg; "query" := JStr q ]}.
Proof. unfold failure_shape. rewrite dom_insert_L, dom_singleton_L. set_solver. Qed.

Lemma key_in_dom (k : string) (d : dict) : key_in k d = true <-> k ∈ dom d.
Proof.
  unfold key_in. rewrite elem_of_dom. destruct (d !! k) eqn:E; split; try done.
Qed.

Lemma success_shape_no_error (d : dict) : success_shape d -> key_in "error" d = false.
Proof.
  intros Hd. apply not_true_is_false. rewrite key_in_dom, Hd. set_solver.
Qed.

Lemma failure_shape_error (d : dict) : failure_shape d -> key_in "error" d = true.
Proof. intros Hd. rewrite key_in_dom, Hd. set_solver. Qed.

Lemma adapter_shapes w reg p q n tp raw :
  exists d t, adapter w reg p q n tp raw = (Ret d, t) /\
    adapter_shape w q n tp raw d /\ (p <> Tavily -> success_shape d \/ failure_shape d).
Proof.
  destruct p; cbn [adapter].
  - destruct (_search_tavily_cases w reg q n tp raw) as [(m & _ & Hm & ->)|(msg & t & -> & _)];
      eexists _, _; (split; [reflexivity|]); (split; [|done]).
    + right. right. by exists m.
    + right. left. apply failure_shape_intro.
  - destruct (_search_serper_cases w reg q n)
      as [(? & ? & ? & ? & ? & items & _ & _ & _ & _ & _ & _ & ->)|(msg & t & -> & _)];
      eexists _, _; (split; [reflexivity|]);
      first [ split; [|intros _]; left; apply success_shape_intro
            | split; [right|intros _; right]; try left; apply failure_shape_intro ].
  - destruct (_search_duckduckgo_cases w q n)
      as [(? & items & _ & _ & ->)|(msg & t & -> & _)];
      eexists _, _; (split; [reflexivity|]);
      first [ split; [|intros _]; left; apply success_shape_intro
            | split; [right|intros _; right]; try left; apply failure_shape_intro ].
Qed.

(** What the chain returns is the exhaustion dictionary or the error-free
    response of one of its adapters. *)
Lemma fallback_chain_result (run : provider -> M dict) (exh : dict) (ps : list provider)
    (P : dict -> Prop) :
  (forall p, exists d t, run p = (Ret d, t) /\ P d) ->
  exists d, fst (fallback_chain run exh ps) = Ret d /\
            (d = exh \/ key_in "error" d = false /\ P d).
Proof.
  intros Hrun. induction ps as [|p ps (d & IH & Hd)]; [exists exh; by split; [|left]|].
  cbn [fallback_chain]. destruct (Hrun p) as (d' & t & -> & HP). cbn [bind].
  destruct (key_in "error" d') eqn:He.
  - destruct (fallback_chain run exh ps) as [r tr]. cbn [fst] in *. subst r. by exists d.
  - exists d'. split; [done|]. by right.
Qed.

(** C6, as the code has it: the Serper and DuckDuckGo adapters return
    exactly one of the two shapes, the success shape without [error] key or
    the failure shape with it; the Tavily adapter returns the failure shape
    or the backend's own dictionary with [provider] set; [web_search]
    returns either the failure shape, with its [error] key, or a response
    without [error] key that is the success shape or such a Tavily
    dictionary. *)
Theorem search_response_shapes (w : world) (reg : registry) (q : string) (n : Z)
    (tp : topic) (raw : bool) :
  (exists d, fst (_search_serper w reg q n) = Ret d /\
             (success_shape d /\ key_in "error" d = false \/
              failure_shape d /\ key_in "error" d = true)) /\
  (exists d, fst (_search_duckduckgo w q n) = Ret d /\
             (success_shape d /\ key_in "error" d = false \/
              failure_shape d /\ key_in "error" d = true)) /\
  (exists d, fst (_search_tavily w reg q n tp raw) = Ret d /\
             (failure_shape d \/
              exists m, tavily_search w q n raw tp = Ret (JObj m) /\
                        d = <["provider" := JStr "tavily"]> m)) /\
  (exists d, fst (web_search w reg q n tp raw) = Ret d /\
             (failure_shape d /\ key_in "error" d = true \/
              key_in "error" d = false /\
              (success_shape d \/
               exists m, tavily_search w q n raw tp = Ret (JObj m) /\
                         d = <["provider" := JStr "tavily"]> m))).
Proof.
  split; [|split; [|split]].
  - destruct (adapter_shapes w reg Serper q n tp raw) as (d & t & Heq & _ & Hd).
    cbn [adapter] in Heq. rewrite Heq. exists d. split; [done|].
    destruct Hd as [Hd|Hd]; [done|left|right];
      eauto using success_shape_no_error, failure_shape_error.
  - destruct (adapter_shapes w reg DuckDuckGo q n tp raw) as (d & t & Heq & _ & Hd).
    cbn [adapter] in Heq. rewrite Heq. exists d. split; [done|].
    destruct Hd as [Hd|Hd]; [done|left|right];
      eauto using success_shape_no_error, failure_shape_error.
  - destruct (_search_tavily_cases w reg q n tp raw) as [(m & _ & Hm & ->)|(msg & t & -> & _)];
      eexists; (split; [reflexivity|]).
    + right. by exists m.
    + left. apply failure_shape_intro.
  - rewrite web_search_chain.
    edestruct (fallback_chain_result (fun p => adapter w reg p q n tp raw))
      with (P := adapter_shape w q n tp raw) as (d & -> & Hd).
    { intros p. destruct (adapter_shapes w reg p q n tp raw) as (d & t & ? & ? & _). eauto. }
    exists d. split; [done|]. destruct Hd as [->|[He Hd]].
    + left. split; [apply failure_shape_intro|done].
    + destruct Hd as [Hd|[Hd|Hd]]; [right; by auto| |right; by auto].
      apply failure_shape_error in Hd. congruence.
Qed.

(** C6 as stated fails: a Tavily answer goes through [web_search] with the
    keys Tavily gave it, which are neither of the two shapes. *)
Lemma web_search_tavily_keys :
  exists d,
    fst (web_search tavily_up full_registry "rust ownership model" 5 general false) = Ret d /\
    d !! "answer" = Some JNull /\
    ~ success_shape d /\ ~ failure_shape d.
Proof.
  exists (<["provider" := JStr "tavily"]> tavily_answer).
  split; [reflexivity|]. split; [reflexivity|].
  split; intros Hd; assert (Ha : "answer" ∈ dom (<["provider" := JStr "tavily"]> tavily_answer))
    by (apply elem_of_dom; by eexists); rewrite Hd in Ha; set_solver.
Qed.

(** ** The registry's report against the dispatcher *)

(** [get_search_provider] answers [None] exactly when
    [is_search_available] answers [False]. *)
Lemma get_search_provider_None_iff (reg : registry) :
  get_search_provider reg = None <-> is_search_available reg = false.
Proof.
  unfold get_search_provider, is_search_available.
  destruct (bool_decide (_tavily_client reg <> None)),
    (bool_decide (_serper_api_key reg <> None)), (_ddg_available reg); by split.
Qed.

Lemma web_search_first_invoked w reg q n tp raw :
  head (invoked (snd (web_search w reg q n tp raw))) =
  head (List.filter (web_search_guard reg) priority_order).
Proof.
  rewrite web_search_chain.
  destruct (List.filter (web_search_guard reg) priority_order) as [|p ps]; [done|].
  cbn [fallback_chain]. destruct (adapter_returns w reg p q n tp raw) as (d & t & -> & _).
  cbn [bind]. by destruct (if key_in "error" d then _ else _).
Qed.

(** With a Serper key that is absent or not empty, the provider
    [get_search_provider] names is the first one [web_search] enters. *)
Lemma get_search_provider_first_attempt w reg q n tp raw :
  _serper_api_key reg <> Some "" ->
  get_search_provider reg =
  provider_name <$> head (invoked (snd (web_search w reg q n tp raw))).
Proof.
  intros Hkey. rewrite web_search_first_invoked.
  unfold get_search_provider. cbn [List.filter priority_order web_search_guard].
  destruct (_tavily_client reg); [done|].
  destruct (_serper_api_key reg) as [k|]; [|by destruct (_ddg_available reg)].
  assert (k <> "") by congruence.
  cbn [truthy_str]. rewrite (bool_decide_eq_false_2 (k = "")) by done.
  done.
Qed.

(** C9 fails on the code at a Serper key that is the empty string:
    [is_search_available] holds and [get_search_provider] names Serper,
    while [web_search] skips Serper and enters DuckDuckGo first. *)
Theorem get_search_provider_empty_key :
  _serper_api_key empty_key_registry = Some "" /\
  is_search_available empty_key_registry = true /\
  get_search_provider empty_key_registry = Some "Serper" /\
  forall (w : world) (q : string) (n : Z) (tp : topic) (raw : bool),
    head (invoked (snd (web_search w empty_key_registry q n tp raw))) = Some DuckDuckGo.
Proof.
  split; [reflexivity|]. split; [reflexivity|]. split; [reflexivity|].
  intros w q n tp raw. by rewrite web_search_first_invoked.
Qed.

(** * Further properties of the tools *)

(** ** The dispatcher *)

(** A failure of [web_search] is always the failure of exhaustion: the
    error an adapter reported is never what the caller gets. *)
Theorem web_search_error_is_exhaustion (w : world) (reg : registry) (q : string) (n : Z)
    (tp : topic) (raw : bool) :
  exists d,
    fst (web_search w reg q n tp raw) = Ret d /\
    (d = {[ "error" := JStr "No search provider available. Set TAVILY_API_KEY or SERPER_API_KEY, or install duckduckgo-search (pip install duckduckgo-search).";
            "query" := JStr q ]}
     \/ key_in "error" d = false).
Proof.
  rewrite web_search_chain.
  edestruct (fallback_chain_result (fun p => adapter w reg p q n tp raw))
    with (P := fun _ : dict => True) as (d & -> & Hd).
  { intros p. destruct (adapter_returns w reg p q n tp raw) as (d & t & ? & _). eauto. }
  exists d. split; [done|]. destruct Hd as [->|[He _]]; auto.
Qed.

Lemma fallback_chain_invoked_prefix (run : provider -> M dict) (exh : dict)
    (ps : list provider) :
  (forall p', exists d' t, run p' = (Ret d', Invoke p' :: t) /\ Forall (eq (BackendCall p')) t) ->
  invoked (snd (fallback_chain run exh ps)) `prefix_of` ps.
Proof.
  intros Hrun. induction ps as [|p ps IH]; [done|].
  cbn [fallback_chain]. destruct (Hrun p) as (d & t & -> & Ht). cbn [bind].
  destruct (key_in "error" d).
  - destruct (fallback_chain run exh ps) as [r tr]. cbn [snd] in *.
    rewrite invoked_app, (invoked_adapter_trace p t Ht). by apply prefix_cons.
  - cbn [ret snd]. rewrite app_nil_r, (invoked_adapter_trace p t Ht).
    apply prefix_cons, prefix_nil.
Qed.

(** Whatever the adapters answer, the providers [web_search] enters are an
    initial part of the guarded providers in priority order; in particular
    none is entered twice. *)
Theorem web_search_invoked_prefix (w : world) (reg : registry) (q : string) (n : Z)
    (tp : topic) (raw : bool) :
  invoked (snd (web_search w reg q n tp raw))
    `prefix_of` List.filter (web_search_guard reg) priority_order /\
  NoDup (invoked (snd (web_search w reg q n tp raw))).
Proof.
  assert (Hpre : invoked (snd (web_search w reg q n tp raw))
                   `prefix_of` List.filter (web_search_guard reg) priority_order).
  { rewrite web_search_chain. apply fallback_chain_invoked_prefix.
    intros p'. apply adapter_returns. }
  split; [done|]. destruct Hpre as [rest Hrest].
  assert (Hnd : NoDup (List.filter (web_search_guard reg) priority_order)).
  { cbn [List.filter priority_order].
    destruct (web_search_guard reg Tavily), (web_search_guard reg Serper),
      (web_search_guard reg DuckDuckGo); repeat constructor; set_solver. }
  rewrite Hrest in Hnd. by apply NoDup_app in Hnd as [? _].
Qed.


Lemma adapter_provider_field w reg p q n tp raw :
  exists d t,
    adapter w reg p q n tp raw = (Ret d, Invoke p :: t) /\
    Forall (eq (BackendCall p)) t /\
    (key_in "error" d = true \/ d !! "provider" = Some (JStr (provider_tag p))).
Proof.
  destruct p; cbn [adapter provider_tag].
  - destruct (_search_tavily_cases w reg q n tp raw) as [(m & _ & _ & ->)|(msg & t & -> & Ht)];
      eexists _, _; (split; [reflexivity|]); (split; [by repeat constructor|]);
      [right; apply lookup_insert_eq|by left].
  - destruct (_search_serper_cases w reg q n)
      as [(? & ? & ? & ? & ? & ? & _ & _ & _ & _ & _ & _ & ->)|(msg & t & -> & Ht)];
      eexists _, _; (split; [reflexivity|]); (split; [by repeat constructor|]);
      [by right|by left].
  - destruct (_search_duckduckgo_cases w q n) as [(? & ? & _ & _ & ->)|(msg & t & -> & Ht)];
      eexists _, _; (split; [reflexivity|]); (split; [by repeat constructor|]);
      [by right|by left].
Qed.

Lemma fallback_chain_provider_field (run : provider -> M dict) (exh : dict)
    (ps : list provider) :
  (forall p, exists d t,
     run p = (Ret d, Invoke p :: t) /\ Forall (eq (BackendCall p)) t /\
     (key_in "error" d = true \/ d !! "provider" = Some (JStr (provider_tag p)))) ->
  exists d,
    fst (fallback_chain run exh ps) = Ret d /\
    (d = exh \/
     key_in "error" d = false /\
     exists p, last (invoked (snd (fallback_chain run exh ps))) = Some p /\
               d !! "provider" = Some (JStr (provider_tag p))).
Proof.
  intros Hrun. induction ps as [|p ps (d & IH & Hd)]; [exists exh; by split; [|left]|].
  cbn [fallback_chain]. destruct (Hrun p) as (d' & t & -> & Ht & Hp). cbn [bind].
  destruct (key_in "error" d') eqn:He.
  - destruct (fallback_chain run exh ps) as [r tr]. cbn [fst snd] in *. subst r.
    exists d. split; [done|]. destruct Hd as [->|(Hne & p' & Hlast & Hprov)]; [by left|right].
    split; [done|]. exists p'. split; [|done].
    rewrite invoked_app, (invoked_adapter_trace p t Ht). cbn [app].
    destruct (invoked tr) as [|p0 l]; [done|]. by rewrite last_cons, Hlast.
  - exists d'. split; [done|]. right. split; [done|]. exists p. cbn [ret snd].
    rewrite app_nil_r, (invoked_adapter_trace p t Ht).
    split; [done|]. destruct Hp as [Hp|Hp]; [congruence|done].
Qed.

(** A response of [web_search] that is not the failure of exhaustion has no
    [error] key and names, under [provider], the adapter that was entered
    last. *)
Theorem web_search_provider_field (w : world) (reg : registry) (q : string) (n : Z)
    (tp : topic) (raw : bool) :
  exists d,
    fst (web_search w reg q n tp raw) = Ret d /\
    (d = {[ "error" := JStr "No search provider available. Set TAVILY_API_KEY or SERPER_API_KEY, or install duckduckgo-search (pip install duckduckgo-search).";
            "query" := JStr q ]}
     \/ key_in "error" d = false /\
        exists p, last (invoked (snd (web_search w reg q n tp raw))) = Some p /\
                  d !! "provider" = Some (JStr (provider_tag p))).
Proof.
  rewrite web_search_chain. apply fallback_chain_provider_field.
  intros p. apply adapter_provider_field.
Qed.

(** Without a Tavily client the topic and the raw-content flag play no
    part: only the Tavily adapter receives them. *)
Theorem web_search_topic_unused (w : world) (reg : registry) (q : string) (n : Z)
    (tp tp' : topic) (raw raw' : bool) :
  _tavily_client reg = None ->
  web_search w reg q n tp raw = web_search w reg q n tp' raw'.
Proof. intros Hc. unfold web_search. by rewrite Hc. Qed.

Lemma web_search_topic_unused_witness :
  web_search (serper_says 200 "OK" (Ret (JObj ∅))) serper_registry "rust ownership model" 3
    general false =
  web_search (serper_says 200 "OK" (Ret (JObj ∅))) serper_registry "rust ownership model" 3
    news true.
Proof.
  apply (web_search_topic_unused (serper_says 200 "OK" (Ret (JObj ∅))) serper_registry
           "rust ownership model" 3 general news false true).
  reflexivity.
Defined.

(** ** The HTTP request tool and the page fetcher *)




(** The diagnostic of a failed request is chosen by the class of the
    exception, timeouts first: a timeout gives the sentence with the timeout
    that was asked for, whatever the exception's own message; any other
    [RequestException] gives [Request error:] and its message; anything
    else [Error making request:] and its message. *)
Theorem http_request_fault_diagnostic (w : world) (url method : string)
    (headers : option (gmap string string)) (data : option dict)
    (params : option (gmap string string)) (timeout : Z) (e : exn) :
  requests_request w (http_request_kwargs url method headers data params timeout) = Raise e ->
  http_request w url method headers data params timeout =
    (Ret {[ "success" := JBool false; "status_code" := JInt 0; "headers" := JObj ∅;
            "content" := JStr (request_diagnostic timeout e); "url" := JStr url ]},
     [HttpCall url]).
Proof.
  intros Hreq. unfold http_request, request_diagnostic. cbv zeta. rewrite Hreq.
  cbn [bind emit lift fst snd app try_except find].
  destruct (is_Timeout (exn_cls e)); [|destruct (is_RequestException (exn_cls e))];
    reflexivity.
Qed.

Lemma http_request_fault_diagnostic_witness :
  http_request offline "https://example.org/" "get" None None None 30 =
    (Ret {[ "success" := JBool false; "status_code" := JInt 0; "headers" := JObj ∅;
            "content" := JStr "Request timed out after 30 seconds";
            "url" := JStr "https://example.org/" ]},
     [HttpCall "https://example.org/"]).
Proof.
  apply (http_request_fault_diagnostic offline "https://example.org/" "get" None None None 30
           (Exn ReadTimeout "Read timed out.")).
  reflexivity.
Defined.

(** When the transport completes, whatever the status, the outcome carries
    the response's headers and final URL and, as [content], the parsed body
    when [response.json()] succeeds and the raw text when it raises. *)
Theorem http_request_content (w : world) (url method : string)
    (headers : option (gmap string string)) (data : option dict)
    (params : option (gmap string string)) (timeout : Z) (resp : response) :
  requests_request w (http_request_kwargs url method headers data params timeout) = Ret resp ->
  http_request w url method headers data params timeout =
    (Ret {[ "success" := JBool (status_code resp <? 400);
            "status_code" := JInt (status_code resp);
            "headers" := str_dict (resp_headers resp);
            "content" := match json_body resp with
                         | Ret v => v
                         | Raise _ => JStr (text resp)
                         end;
            "url" := JStr (resp_url resp) ]},
     [HttpCall url]).
Proof.
  intros Hreq. unfold http_request. cbv zeta. rewrite Hreq.
  cbn [bind emit lift fst snd app].
  destruct (json_body resp) as [v|e]; reflexivity.
Qed.

Lemma http_request_content_witness :
  http_request (server 404 "Not Found") "https://example.org/missing" "get" None None None 30 =
    (Ret {[ "success" := JBool false; "status_code" := JInt 404; "headers" := JObj ∅;
            "content" := JStr "<p>Hello</p>"; "url" := JStr "https://example.org/" ]},
     [HttpCall "https://example.org/missing"]).
Proof.
  apply (http_request_content (server 404 "Not Found") "https://example.org/missing" "get"
           None None None 30 (page 404 "Not Found")).
  reflexivity.
Defined.


(** ** The Serper adapter *)

(** A client or server error status from Serper becomes the failure
    response, with the status in its message; the body is not read. *)
Theorem _search_serper_http_error (w : world) (reg : registry) (q : string) (n : Z)
    (resp : response) :
  requests_post w "https://google.serper.dev/search"
    {[ "X-API-KEY" := from_option JStr JNull (_serper_api_key reg);
       "Content-Type" := JStr "application/json" ]}
    {[ "q" := JStr q; "num" := JInt n ]} 30 = Ret resp ->
  400 <= status_code resp < 600 ->
  exists kind,
    (kind = "Client" \/ kind = "Server") /\
    _search_serper w reg q n =
      (Ret {[ "error" := JStr ("Serper search error: " +:+ pretty (status_code resp) +:+ " "
                               +:+ kind +:+ " Error: " +:+ reason resp
                               +:+ " for url: " +:+ resp_url resp);
              "query" := JStr q ]},
       [Invoke Serper; BackendCall Serper]).
Proof.
  intros Hpost Hs. destruct (raise_for_status_error resp Hs) as (kind & Hkind & Hraise).
  exists kind. split; [done|].
  unfold _search_serper. rewrite Hpost. run. rewrite Hraise. run. reflexivity.
Qed.

Lemma _search_serper_http_error_witness :
  exists kind,
    _search_serper (serper_says 403 "Forbidden" (Ret (JObj ∅))) serper_registry
      "rust ownership model" 3 =
      (Ret {[ "error" := JStr ("Serper search error: 403 " +:+ kind
                               +:+ " Error: Forbidden for url: https://google.serper.dev/search");
              "query" := JStr "rust ownership model" ]},
       [Invoke Serper; BackendCall Serper]).
Proof.
  destruct (_search_serper_http_error (serper_says 403 "Forbidden" (Ret (JObj ∅)))
              serper_registry "rust ownership model" 3 _ eq_refl ltac:(cbn; lia))
    as (kind & _ & Heq).
  exists kind. exact Heq.
Defined.

Lemma raise_for_status_ok (resp : response) :
  status_code resp < 400 -> raise_for_status resp = Ret tt.
Proof.
  intros Hs. unfold raise_for_status.
  replace (400 <=? status_code resp) with false by lia.
  replace (500 <=? status_code resp) with false by lia. done.
Qed.

Lemma slice_to_nil {A} (n : Z) : slice_to n ([] : list A) = [].
Proof. unfold slice_to. destruct (0 <=? n); apply take_nil. Qed.

Lemma _search_serper_no_organic w reg q n resp m :
  requests_post w "https://google.serper.dev/search"
    {[ "X-API-KEY" := from_option JStr JNull (_serper_api_key reg);
       "Content-Type" := JStr "application/json" ]}
    {[ "q" := JStr q; "num" := JInt n ]} 30 = Ret resp ->
  status_code resp < 400 ->
  json_body resp = Ret (JObj m) ->
  m !! "organic" = None ->
  _search_serper w reg q n =
    (Ret {[ "results" := JArr []; "query" := JStr q; "provider" := JStr "serper" ]},
     [Invoke Serper; BackendCall Serper]).
Proof.
  intros Hpost Hs Hbody Horg.
  unfold _search_serper. rewrite Hpost. run.
  rewrite (raise_for_status_ok resp Hs). run. rewrite Hbody. run. rewrite Horg.
  cbn [from_option py_slice_to]. rewrite slice_to_nil. run. reflexivity.
Qed.

(** An answer of Serper without an [organic] key is a success with no
    results, and [web_search] returns it as such: DuckDuckGo is not tried,
    whether or not it is installed. *)
Theorem web_search_serper_no_organic (w : world) (reg : registry) (q : string) (n : Z)
    (tp : topic) (raw : bool) (resp : response) (m : dict) :
  _tavily_client reg = None ->
  truthy_str (_serper_api_key reg) = true ->
  requests_post w "https://google.serper.dev/search"
    {[ "X-API-KEY" := from_option JStr JNull (_serper_api_key reg);
       "Content-Type" := JStr "application/json" ]}
    {[ "q" := JStr q; "num" := JInt n ]} 30 = Ret resp ->
  status_code resp < 400 ->
  json_body resp = Ret (JObj m) ->
  m !! "organic" = None ->
  web_search w reg q n tp raw =
    (Ret {[ "results" := JArr []; "query" := JStr q; "provider" := JStr "serper" ]},
     [Invoke Serper; BackendCall Serper]).
Proof.
  intros Hc Hk Hpost Hs Hbody Horg.
  unfold web_search. rewrite Hc, Hk.
  rewrite (_search_serper_no_organic w reg q n resp m Hpost Hs Hbody Horg).
  reflexivity.
Qed.

Lemma web_search_serper_no_organic_witness :
  web_search (serper_says 200 "OK" (Ret (JObj ∅))) serper_registry "rust ownership model" 3
    general false =
    (Ret {[ "results" := JArr []; "query" := JStr "rust ownership model";
            "provider" := JStr "serper" ]},
     [Invoke Serper; BackendCall Serper]).
Proof.
  apply (web_search_serper_no_organic (serper_says 200 "OK" (Ret (JObj ∅))) serper_registry
           "rust ownership model" 3 general false
           {| status_code := 200; reason := "OK"; resp_headers := ∅; text := "";
              json_body := Ret (JObj ∅); resp_url := "https://google.serper.dev/search" |} ∅);
    try reflexivity.
Defined.

Lemma for_each_serper_item_dicts (rows : list json) :
  Forall (fun r => is_dict r = true) rows ->
  exists items,
    for_each serper_item rows = (Ret items, []) /\
    Forall2 (unified_item "title" "link" "snippet") rows items.
Proof.
  induction 1 as [|r rows Hr _ (items & IH & Hitems)]; [by exists []|].
  destruct r; try discriminate Hr. cbn [for_each serper_item]. run. rewrite IH. run.
  eexists. split; [reflexivity|]. constructor; [apply unified_item_intro|done].
Qed.

Lemma for_each_serper_item_bad_row (rows : list json) :
  Exists (fun r => is_dict r = false) rows ->
  exists e, for_each serper_item rows = (Raise e, []).
Proof.
  induction 1 as [r rows Hr|r rows _ (e & IH)].
  - destruct r; try discriminate Hr; by eexists.
  - cbn [for_each]. destruct (serper_item_cases r) as [(item & -> & _)|(e' & ->)];
      [|by eexists].
    rewrite IH. by eexists.
Qed.

(** When the rows of [organic] that fall within the limit are objects, the
    Serper adapter succeeds with one item per such row, in order: for a
    limit that is not negative, as many items as the smaller of the limit
    and the number of rows.  Rows beyond the limit are not looked at. *)
Theorem _search_serper_count (w : world) (reg : registry) (q : string) (n : Z)
    (resp : response) (m : dict) (l : list json) :
  requests_post w "https://google.serper.dev/search"
    {[ "X-API-KEY" := from_option JStr JNull (_serper_api_key reg);
       "Content-Type" := JStr "application/json" ]}
    {[ "q" := JStr q; "num" := JInt n ]} 30 = Ret resp ->
  status_code resp < 400 ->
  json_body resp = Ret (JObj m) ->
  m !! "organic" = Some (JArr l) ->
  Forall (fun r => is_dict r = true) (slice_to n l) ->
  exists items,
    _search_serper w reg q n =
      (Ret {[ "results" := JArr items; "query" := JStr q; "provider" := JStr "serper" ]},
       [Invoke Serper; BackendCall Serper]) /\
    Forall2 (unified_item "title" "link" "snippet") (slice_to n l) items /\
    (0 <= n -> length items = Nat.min (Z.to_nat n) (length l)).
Proof.
  intros Hpost Hs Hbody Horg Hrows.
  destruct (for_each_serper_item_dicts _ Hrows) as (items & Hfor & Hitems).
  exists items. split; [|split; [done|]].
  - unfold _search_serper. rewrite Hpost. run.
    rewrite (raise_for_status_ok resp Hs). run. rewrite Hbody. run. rewrite Horg.
    cbn [from_option id py_slice_to]. run. rewrite Hfor. run. reflexivity.
  - intros Hn. rewrite <- (Forall2_length _ _ _ Hitems). unfold slice_to.
    replace (0 <=? n) with true by lia. apply length_take.
Qed.

Lemma _search_serper_count_witness :
  exists items,
    _search_serper (serper_says 200 "OK" (Ret organic_with_bad_row)) serper_registry
      "rust ownership model" 2 =
      (Ret {[ "results" := JArr items; "query" := JStr "rust ownership model";
              "provider" := JStr "serper" ]},
       [Invoke Serper; BackendCall Serper]) /\
    length items = 2%nat.
Proof.
  destruct (_search_serper_count (serper_says 200 "OK" (Ret organic_with_bad_row))
              serper_registry "rust ownership model" 2 _ _ _
              eq_refl eq_refl eq_refl eq_refl ltac:(by repeat constructor))
    as (items & Heq & _ & Hlen).
  exists items. split; [exact Heq|]. exact (Hlen ltac:(lia)).
Defined.

(** One row within the limit that is not an object makes the whole answer
    a failure: the items built from the rows before it are not returned. *)
Theorem _search_serper_bad_row (w : world) (reg : registry) (q : string) (n : Z)
    (resp : response) (m : dict) (l : list json) :
  requests_post w "https://google.serper.dev/search"
    {[ "X-API-KEY" := from_option JStr JNull (_serper_api_key reg);
       "Content-Type" := JStr "application/json" ]}
    {[ "q" := JStr q; "num" := JInt n ]} 30 = Ret resp ->
  status_code resp < 400 ->
  json_body resp = Ret (JObj m) ->
  m !! "organic" = Some (JArr l) ->
  Exists (fun r => is_dict r = false) (slice_to n l) ->
  exists msg,
    _search_serper w reg q n =
      (Ret {[ "error" := JStr ("Serper search error: " +:+ msg); "query" := JStr q ]},
       [Invoke Serper; BackendCall Serper]).
Proof.
  intros Hpost Hs Hbody Horg Hrows.
  destruct (for_each_serper_item_bad_row _ Hrows) as (e & Hfor).
  exists (exn_str e).
  unfold _search_serper. rewrite Hpost. run.
  rewrite (raise_for_status_ok resp Hs). run. rewrite Hbody. run. rewrite Horg.
  cbn [from_option id py_slice_to]. run. rewrite Hfor. run. reflexivity.
Qed.

Lemma _search_serper_bad_row_witness :
  exists msg,
    _search_serper (serper_says 200 "OK" (Ret organic_with_bad_row)) serper_registry
      "rust ownership model" 3 =
      (Ret {[ "error" := JStr ("Serper search error: " +:+ msg);
              "query" := JStr "rust ownership model" ]},
       [Invoke Serper; BackendCall Serper]).
Proof.
  apply (_search_serper_bad_row (serper_says 200 "OK" (Ret organic_with_bad_row))
           serper_registry "rust ownership model" 3 _ _ _ eq_refl eq_refl eq_refl eq_refl).
  do 2 apply Exists_cons_tl. by apply Exists_cons_hd.
Defined.

(** ** Composition of the fallback *)

(** A Tavily attempt that ends with an [error] key, after an exception or
    because the backend's own dictionary has that key, changes nothing but
    the trace: [web_search] answers what it answers without a Tavily
    client. *)
Theorem web_search_after_tavily_failure (w : world) (reg : registry) (q : string) (n : Z)
    (tp : topic) (raw : bool) (d : dict) (t : list event) :
  _tavily_client reg <> None ->
  _search_tavily w reg q n tp raw = (Ret d, t) ->
  key_in "error" d = true ->
  web_search w reg q n tp raw =
    (fst (web_search w (without_tavily reg) q n tp raw),
     t ++ snd (web_search w (without_tavily reg) q n tp raw)).
Proof.
  intros Hc Ht He. unfold web_search. cbn [without_tavily _tavily_client _serper_api_key
                                            _ddg_available].
  rewrite (bool_decide_eq_true_2 _ Hc), (bool_decide_eq_false_2 (None <> None)) by auto.
  unfold attempt at 1 4. rewrite Ht. cbn [bind]. rewrite He. cbn [negb].
  change (_search_serper w (without_tavily reg) q n) with (_search_serper w reg q n).
  by destruct (attempt _ _ _).
Qed.

Lemma web_search_after_tavily_failure_witness :
  web_search tavily_down full_registry "rust ownership model" 2 general false =
    (fst (web_search tavily_down (without_tavily full_registry) "rust ownership model" 2
            general false),
     [Invoke Tavily; BackendCall Tavily]
     ++ snd (web_search tavily_down (without_tavily full_registry) "rust ownership model" 2
               general false)).
Proof.
  apply (web_search_after_tavily_failure tavily_down full_registry "rust ownership model" 2
           general false
           {[ "error" := JStr "Tavily search error: usage limit exceeded";
              "query" := JStr "rust ownership model" ]}
           [Invoke Tavily; BackendCall Tavily]).
  - discriminate.
  - reflexivity.
  - reflexivity.
Defined.

Lemma get_search_provider_first_attempt_witness :
  get_search_provider serper_registry =
  provider_name <$>
    head (invoked (snd (web_search (serper_says 200 "OK" (Ret (JObj ∅))) serper_registry
                          "rust ownership model" 3 general false))).
Proof.
  apply (get_search_provider_first_attempt (serper_says 200 "OK" (Ret (JObj ∅)))
           serper_registry "rust ownership model" 3 general false).
  discriminate.
Defined.

Lemma web_search_exhausted_witness :
  fst (web_search offline full_registry "rust ownership model" 3 general false) =
    Ret {[ "error" := JStr "No search provider available. Set TAVILY_API_KEY or SERPER_API_KEY, or install duckduckgo-search (pip install duckduckgo-search).";
           "query" := JStr "rust ownership model" ]} /\
  invoked (snd (web_search offline full_registry "rust ownership model" 3 general false)) =
    [Tavily; Serper; DuckDuckGo].
Proof.
  apply (web_search_exhausted offline full_registry "rust ownership model" 3 general false).
  repeat constructor; eexists; split; reflexivity.
Defined.
